(** * Glosten-Milgrom sequential-trade simulation: model and properties

    A shallow embedding of [Glosten_Milgrom_model.py].

    Numbers.  The script computes on Python floats, that is on IEEE 754
    binary64.  The code is embedded twice, statement for statement alike:

    - on exact rationals [Q] (the definitions at top level): [+], [-], [*]
      are the field operations, [/] is true division, which raises
      [ZeroDivisionError] on a zero divisor, and [<], [==] are the exact
      comparisons.  This is the reading of the formulas without rounding,
      overflow or NaN; it carries the statements about the flow of data,
      which do not depend on the arithmetic, and the algebra of the
      formulas, stated as holding in exact arithmetic;
    - on binary64 (module [B64]), which is the program as it runs on float
      arguments; it carries what the program does under rounding, and the
      inputs on which the algebra of the formulas fails.

    Randomness.  [random.random()] reads a process-wide generator.  The
    generator is modelled as a stream of draws with a cursor that every call
    advances; the properties quantify over the stream. *)

From Stdlib Require Import ZArith QArith Qfield Lqa Lia List Bool Arith Floats.
Import ListNotations.

Local Open Scope Q_scope.

(** ** Exceptions *)

Inductive exn : Type :=
| ZeroDivisionError
| ValueError.

Inductive result (A : Type) : Type :=
| Ok (a : A)
| Raise (e : exn).

Arguments Ok {A} a.
Arguments Raise {A} e.

Definition bind {A B : Type} (r : result A) (k : A -> result B) : result B :=
  match r with
  | Ok a => k a
  | Raise e => Raise e
  end.

Notation "x <- r ;; k" := (bind r (fun x => k))
  (at level 61, r at next level, right associativity).

(** ** Python's numeric operators, in exact arithmetic *)

(** [x < y]. *)
Definition Qltb (x y : Q) : bool := negb (Qle_bool y x).

(** [x / y]: true division, raising on a zero divisor. *)
Definition truediv (x y : Q) : result Q :=
  if Qeq_bool y 0 then Raise ZeroDivisionError else Ok (x / y).

(** ** The quoting rule and the two Bayes updates *)

Definition calculate_prices (V_L V_H delta mu : Q) : Q * Q :=
  let PA := (V_L + V_H) / 2 + (V_H - V_L) * mu * delta / 2 in
  let PB := (V_L + V_H) / 2 - (V_H - V_L) * mu * delta / 2 in
  (PA, PB).

Definition update_delta_buy (delta mu : Q) : result Q :=
  truediv (delta * (1 - mu)) (1 + mu * (1 - 2 * delta)).

Definition update_delta_sell (delta mu : Q) : result Q :=
  truediv (delta * (1 + mu)) (1 - mu * (1 - 2 * delta)).

(** ** The random source *)

Record rng : Type := mkRng { draws : nat -> Q; cursor : nat }.

Definition random_random (g : rng) : Q * rng :=
  (draws g (cursor g), mkRng (draws g) (S (cursor g))).

(** ** One simulated path *)

Inductive trader : Type := informed | uninformed.

(** The five lists [simulate_model] returns, in the order of its [return]. *)
Record histories : Type := mkHist {
  spread_history : list Q;
  delta_history : list Q;
  asset_price_history : list Q;
  ask_history : list Q;
  bid_history : list Q
}.

(** The local variables of [simulate_model] that the loop reads and writes. *)
Record locals : Type := mkLocals {
  l_delta : Q;
  l_spread : Q;
  l_hist : histories;
  l_rng : rng
}.

Definition draw_trader_type (mu : Q) (g : rng) : trader * rng :=
  let (u, g') := random_random g in
  ((if Qltb u mu then informed else uninformed), g').

Definition draw_true_value (V_L V_H delta : Q) (g : rng) : Q * rng :=
  let (u, g') := random_random g in
  ((if Qltb u delta then V_L else V_H), g').

(** The [if trader_type == 'informed'] block: the belief after the trade. *)
Definition revise (trader_type : trader) (true_value V_H delta mu : Q)
  : result Q :=
  match trader_type with
  | informed =>
      if Qeq_bool true_value V_H
      then update_delta_buy delta mu
      else update_delta_sell delta mu
  | uninformed => Ok delta
  end.

(** The body of [for _ in range(n_tiks)]. *)
Definition loop_body (mu V_L V_H : Q) (s : locals) : result locals :=
  let h := l_hist s in
  let delta := l_delta s in
  let (trader_type, g1) := draw_trader_type mu (l_rng s) in
  let (true_value, g2) := draw_true_value V_L V_H delta g1 in
  let aph := asset_price_history h ++ [true_value] in
  let (PA, PB) := calculate_prices V_L V_H delta mu in
  let askh := ask_history h ++ [PA] in
  let bidh := bid_history h ++ [PB] in
  delta' <- revise trader_type true_value V_H delta mu ;;
  let spread := mu * (V_H - V_L) * delta' * (1 - delta') in
  Ok (mkLocals delta' spread
        (mkHist (spread_history h ++ [spread])
                (delta_history h ++ [delta'])
                aph askh bidh)
        g2).

Fixpoint loop (mu V_L V_H : Q) (n : nat) (s : locals) : result locals :=
  match n with
  | O => Ok s
  | S k => s' <- loop_body mu V_L V_H s ;; loop mu V_L V_H k s'
  end.

Definition simulate_model (delta mu V_L V_H : Q) (n_tiks : nat) (g : rng)
  : result (histories * rng) :=
  let s0 := mkLocals delta (mu * (V_H - V_L))
              (mkHist [] [delta] [] [] []) g in
  s <- loop mu V_L V_H n_tiks s0 ;;
  Ok (l_hist s, l_rng s).

(** ** The Monte Carlo driver *)

(** The five [all_*_histories] lists of the script. *)
Record all_histories : Type := mkAll {
  all_spread_histories : list (list Q);
  all_delta_histories : list (list Q);
  all_asset_price_histories : list (list Q);
  all_ask_histories : list (list Q);
  all_bid_histories : list (list Q)
}.

Definition collect (a : all_histories) (h : histories) : all_histories :=
  mkAll (all_spread_histories a ++ [spread_history h])
        (all_delta_histories a ++ [delta_history h])
        (all_asset_price_histories a ++ [asset_price_history h])
        (all_ask_histories a ++ [ask_history h])
        (all_bid_histories a ++ [bid_history h]).

(** [for _ in range(n_simulations)]: every run starts from the same
    module-level [delta] and continues the shared generator. *)
Fixpoint replicate (delta mu V_L V_H : Q) (n_tiks n_simulations : nat)
  (a : all_histories) (g : rng) : result (all_histories * rng) :=
  match n_simulations with
  | O => Ok (a, g)
  | S k =>
      r <- simulate_model delta mu V_L V_H n_tiks g ;;
      replicate delta mu V_L V_H n_tiks k (collect a (fst r)) (snd r)
  end.

Definition empty_all : all_histories := mkAll [] [] [] [] [].

(** The parameters of the script. *)
Definition V_H0 : Q := 101.
Definition V_L0 : Q := 99.
Definition delta0 : Q := 1 # 2.
Definition mu0 : Q := 2 # 10.

(** A stream that repeats a finite list of draws. *)
Definition cycle (l : list Q) (i : nat) : Q := nth (i mod length l) l 0.
Definition tape (l : list Q) : rng := mkRng (cycle l) 0.

(** * Vocabulary of the properties *)

(** [r] is a normal return of a value equal to [v]. *)
Definition returns (r : result Q) (v : Q) : Prop :=
  exists q, r = Ok q /\ q == v.

(** The generator [k] draws further on. *)
Definition rng_at (g : rng) (k : nat) : rng :=
  mkRng (draws g) (k + cursor g).

(** Tick [i] of a path started on [g] takes draws [2 i] and [2 i + 1]. *)
Definition trader_type_at (mu : Q) (g : rng) (i : nat) : trader :=
  fst (draw_trader_type mu (rng_at g (2 * i))).

Definition true_value_at (V_L V_H delta : Q) (g : rng) (i : nat) : Q :=
  fst (draw_true_value V_L V_H delta (rng_at g (S (2 * i)))).

(** What the five histories of a path started on [g0] say of tick [i]: the
    fundamental drawn, the belief revised from the one before, the spread
    figure taken at the revised belief, and the quotes taken at the belief
    before. *)
Definition tick_recorded (mu V_L V_H : Q) (g0 : rng) (h : histories)
  (i : nat) : Prop :=
  let d := nth i (delta_history h) 0 in
  let d' := nth (S i) (delta_history h) 0 in
  let tv := nth i (asset_price_history h) 0 in
  tv = true_value_at V_L V_H d g0 i /\
  revise (trader_type_at mu g0 i) tv V_H d mu = Ok d' /\
  nth i (spread_history h) 0 = mu * (V_H - V_L) * d' * (1 - d') /\
  nth i (ask_history h) 0 = fst (calculate_prices V_L V_H d mu) /\
  nth i (bid_history h) 0 = snd (calculate_prices V_L V_H d mu).

(** The loop invariant, with [t] the number of ticks done. *)
Record traced (mu V_L V_H : Q) (g0 : rng) (t : nat) (s : locals) : Prop :=
  mkTraced {
    tr_spread : length (spread_history (l_hist s)) = t;
    tr_delta : length (delta_history (l_hist s)) = S t;
    tr_asset : length (asset_price_history (l_hist s)) = t;
    tr_ask : length (ask_history (l_hist s)) = t;
    tr_bid : length (bid_history (l_hist s)) = t;
    tr_last : nth t (delta_history (l_hist s)) 0 = l_delta s;
    tr_rng : l_rng s = rng_at g0 (2 * t);
    tr_ticks :
      forall i, (i < t)%nat -> tick_recorded mu V_L V_H g0 (l_hist s) i
  }.

(** An informed buy, an informed sell and a noise trade, in this order. *)
Definition three_ticks : rng := tape [1#10; 9#10; 1#10; 1#10; 1#2; 1#2].

(** What tick [i] of a path did to the belief: an informed trader bought
    (the fundamental recorded is [V_H]) or sold, or the trader was not
    informed. *)
Inductive order : Type := informed_buy | informed_sell | noise.

Definition order_at (mu V_H : Q) (g : rng) (h : histories) (i : nat)
  : order :=
  match trader_type_at mu g i with
  | informed =>
      if Qeq_bool (nth i (asset_price_history h) 0) V_H
      then informed_buy else informed_sell
  | uninformed => noise
  end.

(** The histories a run returns, without the generator it leaves. *)
Definition histories_of (r : result (histories * rng)) : result histories :=
  p <- r ;; Ok (fst p).

(** Two generators give the same next [k] draws. *)
Definition same_draws (k : nat) (g1 g2 : rng) : Prop :=
  forall j, (j < k)%nat ->
    draws g1 (j + cursor g1) = draws g2 (j + cursor g2).

(** A generator that agrees with [three_ticks] on six draws and then goes
    its own way. *)
Definition three_ticks_then_zero : rng :=
  mkRng (fun i => if (i <? 6)%nat then draws three_ticks i else 0) 0.

(** * The program on binary64 numbers

    The same code, statement by statement, on IEEE 754 binary64 with
    round-to-nearest-even, which is what Python's [float] computes.  The
    integer literals [1] and [2] of the source convert exactly.  [+], [-]
    and [*] never raise on floats (they overflow to infinity and give NaN);
    [/] raises [ZeroDivisionError] on a divisor equal to zero, of either
    sign.  The parameters are floats: the script's integers [99] and [101]
    are taken at their float value, which computes the same as long as the
    integers and their sum and difference are below [2^53]. *)

Set Warnings "-inexact-float".

Module B64.

Local Open Scope float_scope.

(** [x / y]. *)
Definition truediv (x y : float) : result float :=
  if y =? 0 then Raise ZeroDivisionError else Ok (x / y).

Definition calculate_prices (V_L V_H delta mu : float) : float * float :=
  let PA := (V_L + V_H) / 2 + (V_H - V_L) * mu * delta / 2 in
  let PB := (V_L + V_H) / 2 - (V_H - V_L) * mu * delta / 2 in
  (PA, PB).

Definition update_delta_buy (delta mu : float) : result float :=
  truediv (delta * (1 - mu)) (1 + mu * (1 - 2 * delta)).

Definition update_delta_sell (delta mu : float) : result float :=
  truediv (delta * (1 + mu)) (1 - mu * (1 - 2 * delta)).

Record rng : Type := mkRng { draws : nat -> float; cursor : nat }.

Definition random_random (g : rng) : float * rng :=
  (draws g (cursor g), mkRng (draws g) (S (cursor g))).

Record histories : Type := mkHist {
  spread_history : list float;
  delta_history : list float;
  asset_price_history : list float;
  ask_history : list float;
  bid_history : list float
}.

Record locals : Type := mkLocals {
  l_delta : float;
  l_spread : float;
  l_hist : histories;
  l_rng : rng
}.

Definition draw_trader_type (mu : float) (g : rng) : trader * rng :=
  let (u, g') := random_random g in
  ((if u <? mu then informed else uninformed), g').

Definition draw_true_value (V_L V_H delta : float) (g : rng) : float * rng :=
  let (u, g') := random_random g in
  ((if u <? delta then V_L else V_H), g').

Definition revise (trader_type : trader) (true_value V_H delta mu : float)
  : result float :=
  match trader_type with
  | informed =>
      if true_value =? V_H
      then update_delta_buy delta mu
      else update_delta_sell delta mu
  | uninformed => Ok delta
  end.

Definition loop_body (mu V_L V_H : float) (s : locals) : result locals :=
  let h := l_hist s in
  let delta := l_delta s in
  let (trader_type, g1) := draw_trader_type mu (l_rng s) in
  let (true_value, g2) := draw_true_value V_L V_H delta g1 in
  let aph := asset_price_history h ++ [true_value] in
  let (PA, PB) := calculate_prices V_L V_H delta mu in
  let askh := ask_history h ++ [PA] in
  let bidh := bid_history h ++ [PB] in
  delta' <- revise trader_type true_value V_H delta mu ;;
  let spread := mu * (V_H - V_L) * delta' * (1 - delta') in
  Ok (mkLocals delta' spread
        (mkHist (spread_history h ++ [spread])
                (delta_history h ++ [delta'])
                aph askh bidh)
        g2).

Fixpoint loop (mu V_L V_H : float) (n : nat) (s : locals) : result locals :=
  match n with
  | O => Ok s
  | S k => s' <- loop_body mu V_L V_H s ;; loop mu V_L V_H k s'
  end.

Definition simulate_model (delta mu V_L V_H : float) (n_tiks : nat)
  (g : rng) : result (histories * rng) :=
  let s0 := mkLocals delta (mu * (V_H - V_L))
              (mkHist [] [delta] [] [] []) g in
  s <- loop mu V_L V_H n_tiks s0 ;;
  Ok (l_hist s, l_rng s).

Record all_histories : Type := mkAll {
  all_spread_histories : list (list float);
  all_delta_histories : list (list float);
  all_asset_price_histories : list (list float);
  all_ask_histories : list (list float);
  all_bid_histories : list (list float)
}.

Definition collect (a : all_histories) (h : histories) : all_histories :=
  mkAll (all_spread_histories a ++ [spread_history h])
        (all_delta_histories a ++ [delta_history h])
        (all_asset_price_histories a ++ [asset_price_history h])
        (all_ask_histories a ++ [ask_history h])
        (all_bid_histories a ++ [bid_history h]).

Fixpoint replicate (delta mu V_L V_H : float) (n_tiks n_simulations : nat)
  (a : all_histories) (g : rng) : result (all_histories * rng) :=
  match n_simulations with
  | O => Ok (a, g)
  | S k =>
      r <- simulate_model delta mu V_L V_H n_tiks g ;;
      replicate delta mu V_L V_H n_tiks k (collect a (fst r)) (snd r)
  end.

Definition empty_all : all_histories := mkAll [] [] [] [] [].

(** [np.mean(rows, axis=0)] on a list of lists.  numpy first builds a
    two-dimensional array, which fails with [ValueError] on rows of unequal
    length; it then adds the rows up in their order, starting from the
    first, and divides each column's sum by the number of rows.  The mean
    of no row at all is numpy's [nan] with the shape of a scalar: the
    value [Nan]. *)
Inductive mean_value : Type :=
| Series (m : list float)
| Nan.

(** The sum of a column, first entry first. *)
Definition fsum (l : list float) : float :=
  match l with
  | [] => 0
  | x :: rest => fold_left PrimFloat.add rest x
  end.

Definition column (rows : list (list float)) (j : nat) : list float :=
  map (fun row => nth j row 0) rows.

(** The number of rows as a float (exact below [2^53]). *)
Definition count (k : nat) : float :=
  PrimFloat.of_uint63 (Uint63.of_Z (Z.of_nat k)).

Definition np_mean_axis0 (rows : list (list float)) : result mean_value :=
  match rows with
  | [] => Ok Nan
  | first :: _ =>
      if forallb (fun row => Nat.eqb (length row) (length first)) rows
      then Ok (Series (map (fun j => fsum (column rows j)
                                     / count (length rows))
                           (seq 0 (length first))))
      else Raise ValueError
  end.

Record aggregate : Type := mkAgg {
  mean_spread : mean_value;
  mean_delta : mean_value;
  mean_asset_price : mean_value;
  mean_ask : mean_value;
  mean_bid : mean_value
}.

(** The script from [all_spread_histories = []] to [mean_bid]. *)
Definition monte_carlo (delta mu V_L V_H : float)
  (n_tiks n_simulations : nat) (g : rng) : result aggregate :=
  r <- replicate delta mu V_L V_H n_tiks n_simulations empty_all g ;;
  let a := fst r in
  m_spread <- np_mean_axis0 (all_spread_histories a) ;;
  m_delta <- np_mean_axis0 (all_delta_histories a) ;;
  m_asset_price <- np_mean_axis0 (all_asset_price_histories a) ;;
  m_ask <- np_mean_axis0 (all_ask_histories a) ;;
  m_bid <- np_mean_axis0 (all_bid_histories a) ;;
  Ok (mkAgg m_spread m_delta m_asset_price m_ask m_bid).

(** The parameters of the script. *)
Definition V_H0 : float := 101.
Definition V_L0 : float := 99.
Definition delta0 : float := 0.5.
Definition mu0 : float := 0.2.

(** A stream that repeats a finite list of draws. *)
Definition cycle (l : list float) (i : nat) : float :=
  nth (i mod length l) l 0.
Definition tape (l : list float) : rng := mkRng (cycle l) 0.

(** The generator [k] draws further on. *)
Definition rng_at (g : rng) (k : nat) : rng :=
  mkRng (draws g) (k + cursor g).

(** Tick [i] of a path started on [g] takes draws [2 i] and [2 i + 1]. *)
Definition trader_type_at (mu : float) (g : rng) (i : nat) : trader :=
  fst (draw_trader_type mu (rng_at g (2 * i))).

Definition true_value_at (V_L V_H delta : float) (g : rng) (i : nat)
  : float :=
  fst (draw_true_value V_L V_H delta (rng_at g (S (2 * i)))).

(** What the five histories of a path started on [g0] say of tick [i]. *)
Definition tick_recorded (mu V_L V_H : float) (g0 : rng) (h : histories)
  (i : nat) : Prop :=
  let d := nth i (delta_history h) 0 in
  let d' := nth (S i) (delta_history h) 0 in
  let tv := nth i (asset_price_history h) 0 in
  tv = true_value_at V_L V_H d g0 i /\
  revise (trader_type_at mu g0 i) tv V_H d mu = Ok d' /\
  nth i (spread_history h) 0 = mu * (V_H - V_L) * d' * (1 - d') /\
  nth i (ask_history h) 0 = fst (calculate_prices V_L V_H d mu) /\
  nth i (bid_history h) 0 = snd (calculate_prices V_L V_H d mu).

(** The loop invariant, with [t] the number of ticks done. *)
Record traced (mu V_L V_H : float) (g0 : rng) (t : nat) (s : locals)
  : Prop := mkTraced {
    tr_spread : length (spread_history (l_hist s)) = t;
    tr_delta : length (delta_history (l_hist s)) = S t;
    tr_asset : length (asset_price_history (l_hist s)) = t;
    tr_ask : length (ask_history (l_hist s)) = t;
    tr_bid : length (bid_history (l_hist s)) = t;
    tr_last : nth t (delta_history (l_hist s)) 0 = l_delta s;
    tr_rng : l_rng s = rng_at g0 (2 * t);
    tr_ticks :
      forall i, (i < t)%nat -> tick_recorded mu V_L V_H g0 (l_hist s) i
  }.

(** An informed buy, an informed sell and a noise trade, in this order,
    on the script's parameters. *)
Definition three_ticks : rng := tape [0.1; 0.9; 0.1; 0.1; 0.5; 0.5].

End B64.

(** * Properties *)

(** ** Division and comparison *)

Lemma Qeq_bool_false_iff (x y : Q) : Qeq_bool x y = false <-> ~ x == y.
Proof.
  split.
  - apply Qeq_bool_neq.
  - intro H. destruct (Qeq_bool x y) eqn:E; [|reflexivity].
    apply Qeq_bool_iff in E. contradiction.
Qed.

Lemma truediv_ok (x y : Q) : ~ y == 0 -> truediv x y = Ok (x / y).
Proof.
  intro H. unfold truediv. apply Qeq_bool_false_iff in H. now rewrite H.
Qed.

Lemma truediv_raise (x y : Q) :
  y == 0 -> truediv x y = Raise ZeroDivisionError.
Proof.
  intro H. unfold truediv. apply Qeq_bool_iff in H. now rewrite H.
Qed.

(** A quotient against a bound, for a positive divisor. *)
Lemma Qdiv_le_iff (a b c : Q) : 0 < c -> (a / c <= b <-> a <= b * c).
Proof.
  intro Hc. split; intro H.
  - setoid_replace a with (a / c * c) by (field; lra).
    apply Qmult_le_compat_r; lra.
  - apply Qle_shift_div_r; assumption.
Qed.

Lemma Qdiv_lt_iff (a b c : Q) : 0 < c -> (a / c < b <-> a < b * c).
Proof.
  intro Hc. split; intro H.
  - setoid_replace a with (a / c * c) by (field; lra).
    apply Qmult_lt_compat_r; lra.
  - apply Qlt_shift_div_r; assumption.
Qed.

Lemma Qdiv_ge_iff (a b c : Q) : 0 < c -> (b <= a / c <-> b * c <= a).
Proof.
  intro Hc. split; intro H.
  - setoid_replace a with (a / c * c) by (field; lra).
    apply Qmult_le_compat_r; lra.
  - apply Qle_shift_div_l; assumption.
Qed.

Lemma Qdiv_gt_iff (a b c : Q) : 0 < c -> (b < a / c <-> b * c < a).
Proof.
  intro Hc. split; intro H.
  - setoid_replace a with (a / c * c) by (field; lra).
    apply Qmult_lt_compat_r; lra.
  - apply Qlt_shift_div_l; assumption.
Qed.

(** ** The denominators of the two updates *)

Lemma buy_denominator_pos (delta mu : Q) :
  0 <= delta <= 1 -> 0 <= mu <= 1 -> delta < 1 \/ mu < 1 ->
  0 < 1 + mu * (1 - 2 * delta).
Proof.
  intros Hd Hm [H|H]; nra.
Qed.

Lemma sell_denominator_pos (delta mu : Q) :
  0 <= delta <= 1 -> 0 <= mu <= 1 -> 0 < delta \/ mu < 1 ->
  0 < 1 - mu * (1 - 2 * delta).
Proof.
  intros Hd Hm [H|H]; nra.
Qed.

(** The posterior after a buy, when the divisor is positive. *)
Lemma buy_posterior (delta mu : Q) :
  0 < 1 + mu * (1 - 2 * delta) ->
  update_delta_buy delta mu
  = Ok (delta * (1 - mu) / (1 + mu * (1 - 2 * delta))).
Proof.
  intro H. unfold update_delta_buy. apply truediv_ok. lra.
Qed.

Lemma sell_posterior (delta mu : Q) :
  0 < 1 - mu * (1 - 2 * delta) ->
  update_delta_sell delta mu
  = Ok (delta * (1 + mu) / (1 - mu * (1 - 2 * delta))).
Proof.
  intro H. unfold update_delta_sell. apply truediv_ok. lra.
Qed.

Lemma buy_in_unit (delta mu : Q) :
  0 <= delta <= 1 -> 0 <= mu <= 1 -> delta < 1 \/ mu < 1 ->
  exists b, update_delta_buy delta mu = Ok b /\ 0 <= b <= 1.
Proof.
  intros Hd Hm Hs.
  pose proof (buy_denominator_pos delta mu Hd Hm Hs) as HD.
  eexists. split; [apply buy_posterior; exact HD|].
  split.
  - apply Qdiv_ge_iff; [exact HD|]. nra.
  - apply Qdiv_le_iff; [exact HD|]. nra.
Qed.

Lemma sell_in_unit (delta mu : Q) :
  0 <= delta <= 1 -> 0 <= mu <= 1 -> 0 < delta \/ mu < 1 ->
  exists s, update_delta_sell delta mu = Ok s /\ 0 <= s <= 1.
Proof.
  intros Hd Hm Hs.
  pose proof (sell_denominator_pos delta mu Hd Hm Hs) as HD.
  eexists. split; [apply sell_posterior; exact HD|].
  split.
  - apply Qdiv_ge_iff; [exact HD|]. nra.
  - apply Qdiv_le_iff; [exact HD|]. nra.
Qed.

Lemma buy_in_open_unit (delta mu : Q) :
  0 < delta < 1 -> 0 <= mu < 1 ->
  exists b, update_delta_buy delta mu = Ok b /\ 0 < b < 1.
Proof.
  intros Hd Hm.
  assert (HD : 0 < 1 + mu * (1 - 2 * delta)) by nra.
  eexists. split; [apply buy_posterior; exact HD|].
  split.
  - apply Qdiv_gt_iff; [exact HD|]. nra.
  - apply Qdiv_lt_iff; [exact HD|]. nra.
Qed.

Lemma sell_in_open_unit (delta mu : Q) :
  0 < delta < 1 -> 0 <= mu < 1 ->
  exists s, update_delta_sell delta mu = Ok s /\ 0 < s < 1.
Proof.
  intros Hd Hm.
  assert (HD : 0 < 1 - mu * (1 - 2 * delta)) by nra.
  eexists. split; [apply sell_posterior; exact HD|].
  split.
  - apply Qdiv_gt_iff; [exact HD|]. nra.
  - apply Qdiv_lt_iff; [exact HD|]. nra.
Qed.

(** ** What one tick draws *)

Lemma rng_at_0 (g : rng) : rng_at g 0 = g.
Proof. now destruct g. Qed.

Lemma rng_at_at (g : rng) (j k : nat) :
  rng_at (rng_at g j) k = rng_at g (k + j).
Proof.
  unfold rng_at. cbn [draws cursor]. f_equal. lia.
Qed.

(** The loop body, unfolded: it fails exactly when the revision does. *)
Lemma loop_body_eq (mu V_L V_H : Q) (s : locals) :
  loop_body mu V_L V_H s =
  (let h := l_hist s in
   let delta := l_delta s in
   let trader_type := fst (draw_trader_type mu (l_rng s)) in
   let true_value :=
     fst (draw_true_value V_L V_H delta (rng_at (l_rng s) 1)) in
   delta' <- revise trader_type true_value V_H delta mu ;;
   Ok (mkLocals delta' (mu * (V_H - V_L) * delta' * (1 - delta'))
         (mkHist
            (spread_history h ++ [mu * (V_H - V_L) * delta' * (1 - delta')])
            (delta_history h ++ [delta'])
            (asset_price_history h ++ [true_value])
            (ask_history h ++ [fst (calculate_prices V_L V_H delta mu)])
            (bid_history h ++ [snd (calculate_prices V_L V_H delta mu)]))
         (rng_at (l_rng s) 2))).
Proof. reflexivity. Qed.

(** ** The record a path keeps of its ticks *)

Section Trace.

Variables mu V_L V_H : Q.
(** The generator the path started on. *)
Variable g0 : rng.

Lemma nth_snoc_old (l : list Q) (x : Q) (i : nat) :
  (i < length l)%nat -> nth i (l ++ [x]) 0 = nth i l 0.
Proof. intro H. now apply app_nth1. Qed.

Lemma nth_snoc_new (l : list Q) (x : Q) (i : nat) :
  i = length l -> nth i (l ++ [x]) 0 = x.
Proof.
  intros ->. rewrite app_nth2 by lia. now rewrite Nat.sub_diag.
Qed.

Lemma traced_loop_body (t : nat) (s s' : locals) :
  traced mu V_L V_H g0 t s -> loop_body mu V_L V_H s = Ok s' ->
  traced mu V_L V_H g0 (S t) s'.
Proof.
  intros [Hs Hd Ha Hk Hb Hl Hg Ht] Hbody.
  rewrite loop_body_eq in Hbody. cbv zeta in Hbody.
  destruct (revise _ _ _ _ _) as [d'|e] eqn:Hrev; [|discriminate].
  cbn [bind] in Hbody. injection Hbody as <-.
  rewrite Hg, !rng_at_at in *.
  constructor; cbn [l_hist l_delta l_rng spread_history delta_history
                    asset_price_history ask_history bid_history];
    rewrite ?length_app; cbn [length]; try lia.
  - apply nth_snoc_new. lia.
  - f_equal. lia.
  - intros i Hi. unfold tick_recorded.
    cbn [spread_history delta_history asset_price_history
         ask_history bid_history].
    destruct (Nat.eq_dec i t) as [->|Hne].
    + rewrite (nth_snoc_old (delta_history _)) by lia.
      rewrite !nth_snoc_new by lia.
      rewrite Hl.
      replace (true_value_at V_L V_H (l_delta s) g0 t)
        with (fst (draw_true_value V_L V_H (l_delta s)
                     (rng_at g0 (1 + 2 * t)))) by reflexivity.
      replace (trader_type_at mu g0 t)
        with (fst (draw_trader_type mu (rng_at g0 (2 * t)))) by reflexivity.
      repeat split; assumption.
    + assert (Hlt : (i < t)%nat) by lia.
      rewrite !nth_snoc_old by lia.
      exact (Ht i Hlt).
Qed.

Lemma traced_loop (n : nat) : forall (t : nat) (s s' : locals),
  traced mu V_L V_H g0 t s -> loop mu V_L V_H n s = Ok s' ->
  traced mu V_L V_H g0 (n + t) s'.
Proof.
  induction n as [|n IH]; intros t s s' Htr Hloop; cbn [loop] in Hloop.
  - injection Hloop as <-. exact Htr.
  - destruct (loop_body mu V_L V_H s) as [s1|e] eqn:Hbody; [|discriminate].
    cbn [bind] in Hloop.
    replace (S n + t)%nat with (n + S t)%nat by lia.
    eapply IH; [|exact Hloop].
    eapply traced_loop_body; eassumption.
Qed.

End Trace.

Lemma traced_start (delta mu V_L V_H : Q) (g : rng) :
  traced mu V_L V_H g 0
    (mkLocals delta (mu * (V_H - V_L)) (mkHist [] [delta] [] [] []) g).
Proof.
  constructor; cbn; try reflexivity.
  - symmetry. apply rng_at_0.
  - intros i Hi. lia.
Qed.

(** A path that returns has recorded every one of its [n_tiks] ticks. *)
Lemma simulate_model_traced (delta mu V_L V_H : Q) (n_tiks : nat)
  (g g' : rng) (h : histories) :
  simulate_model delta mu V_L V_H n_tiks g = Ok (h, g') ->
  length (spread_history h) = n_tiks /\
  length (delta_history h) = S n_tiks /\
  length (asset_price_history h) = n_tiks /\
  length (ask_history h) = n_tiks /\
  length (bid_history h) = n_tiks /\
  g' = rng_at g (2 * n_tiks) /\
  forall i, (i < n_tiks)%nat -> tick_recorded mu V_L V_H g h i.
Proof.
  unfold simulate_model. cbv zeta.
  destruct (loop _ _ _ _ _) as [s|e] eqn:Hloop; [|discriminate].
  cbn [bind]. intro H. injection H as <- <-.
  pose proof (traced_loop mu V_L V_H g n_tiks 0 _ s
                (traced_start delta mu V_L V_H g) Hloop) as Htr.
  rewrite Nat.add_0_r in Htr.
  destruct Htr as [Hs Hd Ha Hk Hb Hl Hg Ht].
  repeat (split; [assumption|]). exact Ht.
Qed.

(** ** Paths that return *)

Section Progress.

Variables mu V_L V_H : Q.
(** What is known of the belief, and of the generator, before every tick. *)
Variable P : Q -> Prop.
Variable G : rng -> Prop.

Hypothesis G_later : forall g k, G g -> G (rng_at g k).
Hypothesis revise_keeps : forall g delta, G g -> P delta ->
  exists delta',
    revise (fst (draw_trader_type mu g))
           (fst (draw_true_value V_L V_H delta (rng_at g 1)))
           V_H delta mu = Ok delta' /\ P delta'.

Lemma loop_returns (n : nat) : forall s : locals,
  G (l_rng s) -> P (l_delta s) -> Forall P (delta_history (l_hist s)) ->
  exists s', loop mu V_L V_H n s = Ok s' /\
             Forall P (delta_history (l_hist s')).
Proof.
  induction n as [|n IH]; intros s Hg Hp Hall; cbn [loop].
  - exists s. split; [reflexivity|assumption].
  - rewrite loop_body_eq. cbv zeta.
    destruct (revise_keeps (l_rng s) (l_delta s) Hg Hp) as (d' & Hrev & Hp').
    rewrite Hrev. cbn [bind].
    apply IH; cbn [l_rng l_delta l_hist delta_history].
    + now apply G_later.
    + exact Hp'.
    + apply Forall_app. split; [assumption|]. now constructor.
Qed.

Lemma simulate_model_returns (delta : Q) (n_tiks : nat) (g : rng) :
  G g -> P delta ->
  exists h g', simulate_model delta mu V_L V_H n_tiks g = Ok (h, g') /\
               Forall P (delta_history h).
Proof.
  intros Hg Hp. unfold simulate_model. cbv zeta.
  destruct (loop_returns n_tiks
              (mkLocals delta (mu * (V_H - V_L))
                 (mkHist [] [delta] [] [] []) g))
    as (s & Hloop & Hall); cbn [l_rng l_delta l_hist delta_history];
    try assumption.
  - now repeat constructor.
  - rewrite Hloop. cbn [bind]. now exists (l_hist s), (l_rng s).
Qed.

End Progress.

(** With fewer than all traders informed, an interior belief is revised to
    an interior belief, whatever is drawn. *)
Lemma revise_interior (mu V_L V_H : Q) (tt : trader) (tv delta : Q) :
  0 <= mu < 1 -> 0 < delta < 1 ->
  exists delta', revise tt tv V_H delta mu = Ok delta' /\ 0 < delta' < 1.
Proof.
  intros Hm Hd. destruct tt; cbn [revise].
  - destruct (Qeq_bool tv V_H).
    + now apply buy_in_open_unit.
    + now apply sell_in_open_unit.
  - now exists delta.
Qed.

(** * The quoting rule *)



(** C10, amended: in exact arithmetic, for all arguments, the ask and the
    bid that [calculate_prices] returns add up to [V_L + V_H]; the quotes
    are symmetric around the midpoint [(V_L + V_H) / 2], whatever the
    belief and the informed share. *)
Theorem calculate_prices_symmetric (V_L V_H delta mu : Q) :
  fst (calculate_prices V_L V_H delta mu)
  + snd (calculate_prices V_L V_H delta mu) == V_L + V_H
  /\ fst (calculate_prices V_L V_H delta mu) - (V_L + V_H) / 2
     == (V_L + V_H) / 2 - snd (calculate_prices V_L V_H delta mu).
Proof.
  unfold calculate_prices. cbn [fst snd]. split; field.
Qed.

(** * The belief updates *)

(** C6, amended: in exact arithmetic, for belief and informed share both
    strictly between [0] and [1], the buy update returns a belief strictly
    below the one given and the sell update one strictly above. *)
Theorem update_delta_moves_belief (delta mu : Q) :
  0 < delta < 1 -> 0 < mu < 1 ->
  (exists b, update_delta_buy delta mu = Ok b /\ b < delta) /\
  (exists s, update_delta_sell delta mu = Ok s /\ delta < s).
Proof.
  intros Hd Hm.
  assert (HB : 0 < 1 + mu * (1 - 2 * delta)) by nra.
  assert (HS : 0 < 1 - mu * (1 - 2 * delta)) by nra.
  assert (H1 : 0 < mu * delta) by nra.
  assert (H2 : 0 < mu * delta * (1 - delta)) by nra.
  split; eexists.
  - split; [apply buy_posterior; exact HB|].
    apply Qdiv_lt_iff; [exact HB|]. nra.
  - split; [apply sell_posterior; exact HS|].
    apply Qdiv_gt_iff; [exact HS|]. nra.
Qed.

Lemma update_delta_moves_belief_witness :
  (0 < delta0 < 1 /\ 0 < mu0 < 1) /\
  (exists b, update_delta_buy delta0 mu0 = Ok b /\ b < delta0) /\
  (exists s, update_delta_sell delta0 mu0 = Ok s /\ delta0 < s).
Proof.
  split.
  - unfold delta0, mu0. lra.
  - apply (update_delta_moves_belief delta0 mu0); unfold delta0, mu0; lra.
Defined.

(** C7, as stated, fails at the valid informed share [1]: the buy update at
    belief [1] and the sell update at belief [0] divide zero by zero. *)
Lemma update_delta_boundary_singular :
  0 <= 1 <= 1 /\
  update_delta_buy 1 1 = Raise ZeroDivisionError /\
  update_delta_sell 0 1 = Raise ZeroDivisionError.
Proof.
  split; [lra|]. split; reflexivity.
Qed.

(** C7, amended: for every informed share [m] in [[0, 1]] the buy update
    maps belief [0] to [0] and the sell update maps belief [1] to [1]; for
    [m < 1] moreover the buy update maps [1] to [1] and the sell update maps
    [0] to [0]. *)
Theorem update_delta_boundaries (m : Q) :
  0 <= m <= 1 ->
  returns (update_delta_buy 0 m) 0 /\
  returns (update_delta_sell 1 m) 1 /\
  (m < 1 ->
   returns (update_delta_buy 1 m) 1 /\
   returns (update_delta_sell 0 m) 0).
Proof.
  intro Hm. unfold returns.
  split; [|split; [|intro Hlt; split]]; eexists.
  - split; [apply buy_posterior; lra|]. field. lra.
  - split; [apply sell_posterior; lra|]. field. lra.
  - split; [apply buy_posterior; lra|]. field. lra.
  - split; [apply sell_posterior; lra|]. field. lra.
Qed.

Lemma update_delta_boundaries_witness :
  0 <= mu0 <= 1 /\
  returns (update_delta_buy 0 mu0) 0 /\
  returns (update_delta_sell 1 mu0) 1 /\
  (mu0 < 1 ->
   returns (update_delta_buy 1 mu0) 1 /\
   returns (update_delta_sell 0 mu0) 0).
Proof.
  split.
  - unfold mu0. lra.
  - apply (update_delta_boundaries mu0). unfold mu0. lra.
Defined.

(** C5, amended: in exact arithmetic, for an informed share in [[0, 1)],
    each update maps a belief in [[0, 1]] to a belief in [[0, 1]] and a
    belief strictly inside to a belief strictly inside; and a path started
    from a belief strictly inside runs to its end, every belief it records
    being strictly inside. *)
Theorem belief_stays_in_unit (mu : Q) :
  0 <= mu < 1 ->
  (forall delta, 0 <= delta <= 1 ->
     (exists b, update_delta_buy delta mu = Ok b /\ 0 <= b <= 1) /\
     (exists s, update_delta_sell delta mu = Ok s /\ 0 <= s <= 1)) /\
  (forall delta, 0 < delta < 1 ->
     (exists b, update_delta_buy delta mu = Ok b /\ 0 < b < 1) /\
     (exists s, update_delta_sell delta mu = Ok s /\ 0 < s < 1)) /\
  (forall delta V_L V_H n_tiks g, 0 < delta < 1 ->
     exists h g',
       simulate_model delta mu V_L V_H n_tiks g = Ok (h, g') /\
       Forall (fun d => 0 < d < 1) (delta_history h)).
Proof.
  intro Hm. split; [|split].
  - intros delta Hd. split.
    + apply buy_in_unit; [assumption|lra|right; lra].
    + apply sell_in_unit; [assumption|lra|right; lra].
  - intros delta Hd. split.
    + now apply buy_in_open_unit.
    + now apply sell_in_open_unit.
  - intros delta V_L V_H n_tiks g Hd.
    apply (simulate_model_returns mu V_L V_H
             (fun d => 0 < d < 1) (fun _ => True)); auto.
    intros g1 d _ Hd1. now apply (revise_interior mu V_L).
Qed.

Lemma belief_stays_in_unit_witness :
  0 <= mu0 < 1 /\
  exists h g',
    simulate_model delta0 mu0 V_L0 V_H0 4
      (tape [1#10; 9#10; 1#2; 1#10; 0; 0]) = Ok (h, g') /\
    Forall (fun d => 0 < d < 1) (delta_history h).
Proof.
  assert (Hm : 0 <= mu0 < 1) by (unfold mu0; lra).
  split; [exact Hm|].
  apply (belief_stays_in_unit mu0 Hm). unfold delta0. lra.
Defined.

(** * One path *)

(** C2: in a path with [V_L < V_H], tick [i] takes its fundamental from
    the belief before the tick and leaves the belief [update_delta_buy] of
    it when the trader drawn is informed and the fundamental is [V_H],
    [update_delta_sell] of it when the trader is informed and the
    fundamental is [V_L], and the same belief when the trader is
    uninformed. *)
Theorem belief_after_tick (delta mu V_L V_H : Q) (n_tiks : nat)
  (g g' : rng) (h : histories) :
  V_L < V_H ->
  simulate_model delta mu V_L V_H n_tiks g = Ok (h, g') ->
  forall i, (i < n_tiks)%nat ->
    let before := nth i (delta_history h) 0 in
    let after := nth (S i) (delta_history h) 0 in
    let true_value := nth i (asset_price_history h) 0 in
    true_value = true_value_at V_L V_H before g i /\
    (true_value = V_L \/ true_value = V_H) /\
    match trader_type_at mu g i with
    | informed =>
        (true_value == V_H -> update_delta_buy before mu = Ok after) /\
        (true_value == V_L -> update_delta_sell before mu = Ok after)
    | uninformed => after = before
    end.
Proof.
  intros Hv Hsim i Hi before after true_value.
  destruct (simulate_model_traced _ _ _ _ _ _ _ _ Hsim)
    as (_ & _ & _ & _ & _ & _ & Hticks).
  destruct (Hticks i Hi) as (Htv & Hrev & _).
  fold before after true_value in Htv, Hrev.
  split; [exact Htv|]. split.
  - rewrite Htv. unfold true_value_at, draw_true_value, random_random.
    cbn [fst]. destruct (Qltb _ _); [now left|now right].
  - destruct (trader_type_at mu g i); cbn [revise] in Hrev.
    + split; intro Heq.
      * apply Qeq_bool_iff in Heq. now rewrite Heq in Hrev.
      * assert (Hne : ~ true_value == V_H) by (rewrite Heq; lra).
        apply Qeq_bool_false_iff in Hne. now rewrite Hne in Hrev.
    + now injection Hrev as <-.
Qed.

Lemma belief_after_tick_witness :
  V_L0 < V_H0 /\
  exists h g',
    simulate_model delta0 mu0 V_L0 V_H0 3 three_ticks = Ok (h, g') /\
    forall i, (i < 3)%nat ->
      let before := nth i (delta_history h) 0 in
      let after := nth (S i) (delta_history h) 0 in
      let true_value := nth i (asset_price_history h) 0 in
      true_value = true_value_at V_L0 V_H0 before three_ticks i /\
      (true_value = V_L0 \/ true_value = V_H0) /\
      match trader_type_at mu0 three_ticks i with
      | informed =>
          (true_value == V_H0 -> update_delta_buy before mu0 = Ok after) /\
          (true_value == V_L0 -> update_delta_sell before mu0 = Ok after)
      | uninformed => after = before
      end.
Proof.
  assert (Hv : V_L0 < V_H0) by (unfold V_L0, V_H0; lra).
  split; [exact Hv|].
  destruct (simulate_model delta0 mu0 V_L0 V_H0 3 three_ticks)
    as [[h g']|e] eqn:Hsim; [|vm_compute in Hsim; discriminate].
  exists h, g'. split; [reflexivity|].
  exact (belief_after_tick delta0 mu0 V_L0 V_H0 3 three_ticks g' h Hv Hsim).
Defined.

(** * The draws a path reads *)

Lemma same_draws_later (k : nat) (g1 g2 : rng) :
  same_draws (2 + k) g1 g2 -> same_draws k (rng_at g1 2) (rng_at g2 2).
Proof.
  intros H j Hj. cbn [rng_at draws cursor].
  replace (j + (2 + cursor g1))%nat with (2 + j + cursor g1)%nat by lia.
  replace (j + (2 + cursor g2))%nat with (2 + j + cursor g2)%nat by lia.
  apply H. lia.
Qed.

Lemma loop_same_draws (mu V_L V_H : Q) (n : nat) : forall s1 s2 : locals,
  l_delta s1 = l_delta s2 -> l_hist s1 = l_hist s2 ->
  same_draws (2 * n) (l_rng s1) (l_rng s2) ->
  (s <- loop mu V_L V_H n s1 ;; Ok (l_hist s))
  = (s <- loop mu V_L V_H n s2 ;; Ok (l_hist s)).
Proof.
  induction n as [|n IH]; intros s1 s2 Hd Hh Hg; cbn [loop].
  - cbn [bind]. now rewrite Hh.
  - rewrite !loop_body_eq. cbv zeta.
    assert (Htt : fst (draw_trader_type mu (l_rng s1))
                  = fst (draw_trader_type mu (l_rng s2))).
    { unfold draw_trader_type, random_random. cbn [fst].
      pose proof (Hg 0%nat ltac:(lia)) as H0. cbn [Nat.add] in H0.
      now rewrite H0. }
    assert (Htv : fst (draw_true_value V_L V_H (l_delta s1)
                         (rng_at (l_rng s1) 1))
                  = fst (draw_true_value V_L V_H (l_delta s2)
                           (rng_at (l_rng s2) 1))).
    { unfold draw_true_value, random_random, rng_at.
      cbn [fst draws cursor].
      pose proof (Hg 1%nat ltac:(lia)) as H1.
      now rewrite H1, Hd. }
    rewrite Htt, Htv, Hd, Hh.
    destruct (revise _ _ _ _ _) as [d'|e]; cbn [bind]; [|reflexivity].
    apply IH; cbn [l_delta l_hist l_rng]; try reflexivity.
    apply same_draws_later.
    replace (2 + 2 * n)%nat with (2 * S n)%nat by lia. exact Hg.
Qed.

(** X12: a run of [n_tiks] ticks reads exactly the next [2 n_tiks] draws.
    It leaves the generator [2 n_tiks] draws further on, and two
    generators that agree on their next [2 n_tiks] draws give the same
    histories, or the same error. *)
Theorem simulate_model_reads_its_draws (delta mu V_L V_H : Q)
  (n_tiks : nat) (g1 g2 : rng) :
  same_draws (2 * n_tiks) g1 g2 ->
  histories_of (simulate_model delta mu V_L V_H n_tiks g1)
  = histories_of (simulate_model delta mu V_L V_H n_tiks g2) /\
  (forall h g1',
     simulate_model delta mu V_L V_H n_tiks g1 = Ok (h, g1') ->
     g1' = rng_at g1 (2 * n_tiks)).
Proof.
  intro Hg. split.
  - unfold histories_of, simulate_model. cbv zeta.
    pose proof (loop_same_draws mu V_L V_H n_tiks
                  (mkLocals delta (mu * (V_H - V_L))
                     (mkHist [] [delta] [] [] []) g1)
                  (mkLocals delta (mu * (V_H - V_L))
                     (mkHist [] [delta] [] [] []) g2)
                  eq_refl eq_refl Hg) as H.
    destruct (loop mu V_L V_H n_tiks (mkLocals _ _ _ g1)) as [a|e1];
      destruct (loop mu V_L V_H n_tiks (mkLocals _ _ _ g2)) as [b|e2];
      cbn [bind fst] in *; exact H.
  - intros h g1' Hsim.
    now destruct (simulate_model_traced _ _ _ _ _ _ _ _ Hsim)
      as (_ & _ & _ & _ & _ & Hgen & _).
Qed.

Lemma simulate_model_reads_its_draws_witness :
  histories_of (simulate_model delta0 mu0 V_L0 V_H0 3 three_ticks)
  = histories_of (simulate_model delta0 mu0 V_L0 V_H0 3
                    three_ticks_then_zero) /\
  (forall h g1',
     simulate_model delta0 mu0 V_L0 V_H0 3 three_ticks = Ok (h, g1') ->
     g1' = rng_at three_ticks (2 * 3)).
Proof.
  apply (simulate_model_reads_its_draws delta0 mu0 V_L0 V_H0 3
           three_ticks three_ticks_then_zero).
  intros j Hj.
  do 6 (destruct j as [|j]; [reflexivity|]). lia.
Defined.

(** * The Monte Carlo loop *)

(** What [collect] has gathered from a list of paths. *)
Lemma fold_collect (hs : list histories) : forall a : all_histories,
  let a' := fold_left collect hs a in
  all_spread_histories a'
  = all_spread_histories a ++ map spread_history hs /\
  all_delta_histories a'
  = all_delta_histories a ++ map delta_history hs /\
  all_asset_price_histories a'
  = all_asset_price_histories a ++ map asset_price_history hs /\
  all_ask_histories a' = all_ask_histories a ++ map ask_history hs /\
  all_bid_histories a' = all_bid_histories a ++ map bid_history hs.
Proof.
  induction hs as [|h hs IH]; intro a; cbn [fold_left map].
  - cbv zeta. rewrite !app_nil_r. now repeat split.
  - specialize (IH (collect a h)). cbv zeta in *.
    destruct IH as (H1 & H2 & H3 & H4 & H5).
    rewrite H1, H2, H3, H4, H5. unfold collect.
    cbn [all_spread_histories all_delta_histories
         all_asset_price_histories all_ask_histories all_bid_histories].
    rewrite <- !app_assoc. now repeat split.
Qed.

(** The replications, one after the other on the shared generator. *)
Lemma replicate_paths (delta mu V_L V_H : Q) (n_tiks : nat) :
  forall (n_simulations : nat) (a a' : all_histories) (g g' : rng),
    replicate delta mu V_L V_H n_tiks n_simulations a g = Ok (a', g') ->
    exists hs,
      length hs = n_simulations /\
      a' = fold_left collect hs a /\
      g' = rng_at g (2 * n_tiks * n_simulations) /\
      forall j h, nth_error hs j = Some h ->
        exists gj,
          simulate_model delta mu V_L V_H n_tiks
            (rng_at g (2 * n_tiks * j)) = Ok (h, gj).
Proof.
  induction n_simulations as [|k IH]; intros a a' g g' Hrep;
    cbn [replicate] in Hrep.
  - injection Hrep as <- <-. exists []. cbn [length fold_left].
    rewrite Nat.mul_0_r, rng_at_0. repeat split.
    intros j h Hj. destruct j; discriminate.
  - destruct (simulate_model delta mu V_L V_H n_tiks g)
      as [[h0 g1]|e] eqn:Hsim; [|discriminate].
    cbn [bind fst snd] in Hrep.
    destruct (IH _ _ _ _ Hrep) as (hs & Hlen & Ha & Hg & Hruns).
    destruct (simulate_model_traced _ _ _ _ _ _ _ _ Hsim)
      as (_ & _ & _ & _ & _ & Hg1 & _).
    exists (h0 :: hs). cbn [length fold_left].
    split; [now rewrite Hlen|]. split; [exact Ha|]. split.
    + rewrite Hg, Hg1, rng_at_at. f_equal. lia.
    + intros j h Hj. destruct j as [|j]; cbn [nth_error] in Hj.
      * injection Hj as <-. rewrite Nat.mul_0_r, rng_at_0. now exists g1.
      * destruct (Hruns j h Hj) as [gj Hrun]. exists gj.
        rewrite Hg1, rng_at_at in Hrun.
        replace (2 * n_tiks * S j)%nat
          with (2 * n_tiks * j + 2 * n_tiks)%nat by lia.
        exact Hrun.
Qed.

(** X13: the Monte Carlo loop runs its replications one after the other on
    the shared generator.  When it returns, replication [j] is the path
    that [simulate_model] gives on the generator [2 n_tiks j] draws on,
    its five histories are row [j] of the five gathered lists, and the
    generator is left [2 n_tiks n_simulations] draws on. *)
Theorem replicate_runs_in_sequence (delta mu V_L V_H : Q)
  (n_tiks n_simulations : nat) (a : all_histories) (g g' : rng) :
  replicate delta mu V_L V_H n_tiks n_simulations empty_all g
  = Ok (a, g') ->
  g' = rng_at g (2 * n_tiks * n_simulations) /\
  exists hs,
    length hs = n_simulations /\
    all_spread_histories a = map spread_history hs /\
    all_delta_histories a = map delta_history hs /\
    all_asset_price_histories a = map asset_price_history hs /\
    all_ask_histories a = map ask_history hs /\
    all_bid_histories a = map bid_history hs /\
    forall j h, nth_error hs j = Some h ->
      exists gj,
        simulate_model delta mu V_L V_H n_tiks
          (rng_at g (2 * n_tiks * j)) = Ok (h, gj).
Proof.
  intro Hrep.
  destruct (replicate_paths _ _ _ _ _ _ _ _ _ _ Hrep)
    as (hs & Hlen & Ha & Hg & Hruns).
  split; [exact Hg|]. exists hs. split; [exact Hlen|].
  pose proof (fold_collect hs empty_all) as Hf. cbv zeta in Hf.
  rewrite <- Ha in Hf. cbn [empty_all all_spread_histories
    all_delta_histories all_asset_price_histories all_ask_histories
    all_bid_histories app] in Hf.
  destruct Hf as (H1 & H2 & H3 & H4 & H5).
  repeat (split; [assumption|]). exact Hruns.
Qed.

Lemma replicate_runs_in_sequence_witness :
  exists a g',
    replicate delta0 mu0 V_L0 V_H0 1 2 empty_all three_ticks = Ok (a, g') /\
    g' = rng_at three_ticks (2 * 1 * 2) /\
    exists hs,
      length hs = 2%nat /\
      all_spread_histories a = map spread_history hs /\
      all_delta_histories a = map delta_history hs /\
      all_asset_price_histories a = map asset_price_history hs /\
      all_ask_histories a = map ask_history hs /\
      all_bid_histories a = map bid_history hs /\
      forall j h, nth_error hs j = Some h ->
        exists gj,
          simulate_model delta0 mu0 V_L0 V_H0 1
            (rng_at three_ticks (2 * 1 * j)) = Ok (h, gj).
Proof.
  destruct (replicate delta0 mu0 V_L0 V_H0 1 2 empty_all three_ticks)
    as [[a g']|e] eqn:Hrep; [|vm_compute in Hrep; discriminate].
  exists a, g'. split; [reflexivity|].
  exact (replicate_runs_in_sequence delta0 mu0 V_L0 V_H0 1 2 a
           three_ticks g' Hrep).
Defined.

(** * Equal values of the asset *)

(** X16: the branch [true_value == V_H] compares values, not draws.  When
    the two values of the asset are equal, every informed trade of a path
    is taken for a buy, whichever state was drawn: the belief after an
    informed tick is the buy update of the belief before. *)
Theorem equal_values_always_buy (delta mu V_L V_H : Q) (n_tiks : nat)
  (g g' : rng) (h : histories) :
  V_L == V_H ->
  simulate_model delta mu V_L V_H n_tiks g = Ok (h, g') ->
  forall i, (i < n_tiks)%nat ->
    trader_type_at mu g i = informed ->
    order_at mu V_H g h i = informed_buy /\
    update_delta_buy (nth i (delta_history h) 0) mu
    = Ok (nth (S i) (delta_history h) 0).
Proof.
  intros Hv Hsim i Hi Htt.
  destruct (simulate_model_traced _ _ _ _ _ _ _ _ Hsim)
    as (_ & _ & _ & _ & _ & _ & Hticks).
  destruct (Hticks i Hi) as (Htv & Hrev & _).
  assert (Heq : Qeq_bool (nth i (asset_price_history h) 0) V_H = true).
  { apply Qeq_bool_iff. rewrite Htv.
    unfold true_value_at, draw_true_value, random_random. cbn [fst].
    destruct (Qltb _ _); [exact Hv|reflexivity]. }
  unfold order_at. rewrite Htt in *. cbn [revise] in Hrev.
  rewrite Heq in *. now split.
Qed.

Lemma equal_values_always_buy_witness :
  exists h g',
    simulate_model delta0 mu0 100 100 3 three_ticks = Ok (h, g') /\
    forall i, (i < 3)%nat ->
      trader_type_at mu0 three_ticks i = informed ->
      order_at mu0 100 three_ticks h i = informed_buy /\
      update_delta_buy (nth i (delta_history h) 0) mu0
      = Ok (nth (S i) (delta_history h) 0).
Proof.
  destruct (simulate_model delta0 mu0 100 100 3 three_ticks)
    as [[h g']|e] eqn:Hsim; [|vm_compute in Hsim; discriminate].
  exists h, g'. split; [reflexivity|].
  apply (equal_values_always_buy delta0 mu0 100 100 3 three_ticks g' h);
    [reflexivity|exact Hsim].
Defined.

(** * The program on binary64 numbers: what a path records *)

Section B64Trace.

Import B64.
Local Open Scope float_scope.

Lemma b64_rng_at_0 (g : rng) : rng_at g 0 = g.
Proof. now destruct g. Qed.

Lemma b64_rng_at_at (g : rng) (j k : nat) :
  rng_at (rng_at g j) k = rng_at g (k + j).
Proof.
  unfold rng_at. cbn [draws cursor]. f_equal. lia.
Qed.

Lemma b64_loop_body_eq (mu V_L V_H : float) (s : locals) :
  loop_body mu V_L V_H s =
  (let h := l_hist s in
   let delta := l_delta s in
   let trader_type := fst (draw_trader_type mu (l_rng s)) in
   let true_value :=
     fst (draw_true_value V_L V_H delta (rng_at (l_rng s) 1)) in
   delta' <- revise trader_type true_value V_H delta mu ;;
   Ok (mkLocals delta' (mu * (V_H - V_L) * delta' * (1 - delta'))
         (mkHist
            (spread_history h ++ [mu * (V_H - V_L) * delta' * (1 - delta')])
            (delta_history h ++ [delta'])
            (asset_price_history h ++ [true_value])
            (ask_history h ++ [fst (calculate_prices V_L V_H delta mu)])
            (bid_history h ++ [snd (calculate_prices V_L V_H delta mu)]))
         (rng_at (l_rng s) 2))).
Proof. reflexivity. Qed.

Lemma b64_nth_snoc_old (l : list float) (x : float) (i : nat) :
  (i < length l)%nat -> nth i (l ++ [x]) 0 = nth i l 0.
Proof. intro H. now apply app_nth1. Qed.

Lemma b64_nth_snoc_new (l : list float) (x : float) (i : nat) :
  i = length l -> nth i (l ++ [x]) 0 = x.
Proof.
  intros ->. rewrite app_nth2 by lia. now rewrite Nat.sub_diag.
Qed.

Lemma b64_traced_loop_body (mu V_L V_H : float) (g0 : rng) (t : nat)
  (s s' : locals) :
  traced mu V_L V_H g0 t s -> loop_body mu V_L V_H s = Ok s' ->
  traced mu V_L V_H g0 (S t) s'.
Proof.
  intros [Hs Hd Ha Hk Hb Hl Hg Ht] Hbody.
  rewrite b64_loop_body_eq in Hbody. cbv zeta in Hbody.
  destruct (revise _ _ _ _ _) as [d'|e] eqn:Hrev; [|discriminate].
  cbn [bind] in Hbody. injection Hbody as <-.
  rewrite Hg, !b64_rng_at_at in *.
  constructor; cbn [l_hist l_delta l_rng spread_history delta_history
                    asset_price_history ask_history bid_history];
    rewrite ?length_app; cbn [length]; try lia.
  - apply b64_nth_snoc_new. lia.
  - f_equal. lia.
  - intros i Hi. unfold tick_recorded.
    cbn [spread_history delta_history asset_price_history
         ask_history bid_history].
    destruct (Nat.eq_dec i t) as [->|Hne].
    + rewrite (b64_nth_snoc_old (delta_history _)) by lia.
      rewrite !b64_nth_snoc_new by lia.
      rewrite Hl.
      replace (true_value_at V_L V_H (l_delta s) g0 t)
        with (fst (draw_true_value V_L V_H (l_delta s)
                     (rng_at g0 (1 + 2 * t)))) by reflexivity.
      replace (trader_type_at mu g0 t)
        with (fst (draw_trader_type mu (rng_at g0 (2 * t)))) by reflexivity.
      repeat split; assumption.
    + assert (Hlt : (i < t)%nat) by lia.
      rewrite !b64_nth_snoc_old by lia.
      exact (Ht i Hlt).
Qed.

Lemma b64_traced_loop (mu V_L V_H : float) (g0 : rng) (n : nat) :
  forall (t : nat) (s s' : locals),
    traced mu V_L V_H g0 t s -> loop mu V_L V_H n s = Ok s' ->
    traced mu V_L V_H g0 (n + t) s'.
Proof.
  induction n as [|n IH]; intros t s s' Htr Hloop; cbn [loop] in Hloop.
  - injection Hloop as <-. exact Htr.
  - destruct (loop_body mu V_L V_H s) as [s1|e] eqn:Hbody; [|discriminate].
    cbn [bind] in Hloop.
    replace (S n + t)%nat with (n + S t)%nat by lia.
    eapply IH; [|exact Hloop].
    eapply b64_traced_loop_body; eassumption.
Qed.

Lemma b64_traced_start (delta mu V_L V_H : float) (g : rng) :
  traced mu V_L V_H g 0
    (mkLocals delta (mu * (V_H - V_L)) (mkHist [] [delta] [] [] []) g).
Proof.
  constructor; cbn [l_hist l_delta l_rng spread_history delta_history
                    asset_price_history ask_history bid_history length nth];
    try reflexivity.
  - symmetry. apply b64_rng_at_0.
  - intros i Hi. lia.
Qed.

(** The belief history only grows at its end. *)
Lemma b64_loop_extends (mu V_L V_H : float) (n : nat) :
  forall s s' : locals,
    loop mu V_L V_H n s = Ok s' ->
    exists l, delta_history (l_hist s') = delta_history (l_hist s) ++ l.
Proof.
  induction n as [|n IH]; intros s s' Hloop; cbn [loop] in Hloop.
  - injection Hloop as <-. exists []. now rewrite app_nil_r.
  - rewrite b64_loop_body_eq in Hloop. cbv zeta in Hloop.
    destruct (revise _ _ _ _ _) as [d'|e]; [|discriminate].
    cbn [bind] in Hloop. apply IH in Hloop. destruct Hloop as [l Hl].
    cbn [l_hist delta_history] in Hl.
    exists ([d'] ++ l). now rewrite app_assoc.
Qed.

(** A path that returns has recorded every one of its [n_tiks] ticks, after
    the initial belief, and has taken [2 n_tiks] draws. *)
Lemma b64_simulate_model_traced (delta mu V_L V_H : float) (n_tiks : nat)
  (g g' : rng) (h : histories) :
  simulate_model delta mu V_L V_H n_tiks g = Ok (h, g') ->
  length (spread_history h) = n_tiks /\
  length (delta_history h) = S n_tiks /\
  length (asset_price_history h) = n_tiks /\
  length (ask_history h) = n_tiks /\
  length (bid_history h) = n_tiks /\
  nth 0 (delta_history h) 0 = delta /\
  g' = rng_at g (2 * n_tiks) /\
  forall i, (i < n_tiks)%nat -> tick_recorded mu V_L V_H g h i.
Proof.
  unfold simulate_model. cbv zeta.
  destruct (loop _ _ _ _ _) as [s|e] eqn:Hloop; [|discriminate].
  cbn [bind]. intro H. injection H as <- <-.
  pose proof (b64_traced_loop mu V_L V_H g n_tiks 0 _ s
                (b64_traced_start delta mu V_L V_H g) Hloop) as Htr.
  rewrite Nat.add_0_r in Htr.
  destruct Htr as [Hs Hd Ha Hk Hb Hl Hg Ht].
  apply b64_loop_extends in Hloop. destruct Hloop as [l Hl'].
  cbn [l_hist delta_history] in Hl'.
  repeat (split; [assumption|]).
  split; [now rewrite Hl'|]. split; assumption.
Qed.

End B64Trace.

(** * The program on binary64 numbers: the updates and the quotes *)

Section B64Updates.

Import B64.
Local Open Scope float_scope.

(** C1, as stated, fails.  A posterior outside [[0, 1]] is returned, not
    refused: at belief [0.9999999999999998] and informed share [0.471],
    both in [[0, 1]], the sell update returns [1.0000000000000002].  And a
    denominator next to zero is divided by, not refused: at belief [1] and
    informed share [0.9999999999999999] the buy denominator is [2^-53],
    about [1.1e-16], and the update returns [1]. *)
Lemma b64_update_delta_unchecked :
  ((0 <=? 0.9999999999999998) = true /\ (0.9999999999999998 <=? 1) = true /\
   (0 <=? 0.471) = true /\ (0.471 <=? 1) = true /\
   update_delta_sell 0.9999999999999998 0.471 = Ok 1.0000000000000002 /\
   (1.0000000000000002 <=? 1) = false) /\
  (1 + 0.9999999999999999 * (1 - 2 * 1) = 0x1p-53 /\
   update_delta_buy 1 0.9999999999999999 = Ok 1).
Proof. vm_compute. repeat split. Qed.

(** C1, amended: each update raises [ZeroDivisionError] exactly when its
    denominator, as computed, is equal to zero, and on every other input
    returns the quotient as computed, whatever its value: there is no
    tolerance around zero and no test of the range of the result. *)
Theorem b64_update_delta_raises_iff_zero_denominator (delta mu : float) :
  (update_delta_buy delta mu = Raise ZeroDivisionError
   <-> (1 + mu * (1 - 2 * delta) =? 0) = true) /\
  (update_delta_buy delta mu
   = Ok (delta * (1 - mu) / (1 + mu * (1 - 2 * delta)))
   <-> (1 + mu * (1 - 2 * delta) =? 0) = false) /\
  (update_delta_sell delta mu = Raise ZeroDivisionError
   <-> (1 - mu * (1 - 2 * delta) =? 0) = true) /\
  (update_delta_sell delta mu
   = Ok (delta * (1 + mu) / (1 - mu * (1 - 2 * delta)))
   <-> (1 - mu * (1 - 2 * delta) =? 0) = false).
Proof.
  unfold update_delta_buy, update_delta_sell, truediv.
  destruct (1 + mu * (1 - 2 * delta) =? 0);
    destruct (1 - mu * (1 - 2 * delta) =? 0);
    repeat split; intro H; try reflexivity; discriminate.
Qed.


(** C10, as stated, fails by rounding: at [V_L = 0.1], [V_H = 0.7], belief
    [0.35] and informed share [1], ask plus bid is [0.8] and [V_L + V_H]
    is [0.7999999999999999]. *)
Lemma b64_quotes_sum_rounded :
  fst (calculate_prices 0.1 0.7 0.35 1)
  + snd (calculate_prices 0.1 0.7 0.35 1) = 0.8 /\
  0.1 + 0.7 = 0.7999999999999999 /\
  (fst (calculate_prices 0.1 0.7 0.35 1)
   + snd (calculate_prices 0.1 0.7 0.35 1) =? 0.1 + 0.7) = false.
Proof. vm_compute. repeat split. Qed.

(** C6, as stated, fails by rounding: at belief [0.5] and informed share
    [2^-60], both strictly between [0] and [1], either update returns the
    belief it was given. *)
Lemma b64_update_leaves_belief :
  (0 <? 0x1p-60) = true /\ (0x1p-60 <? 1) = true /\
  update_delta_buy 0.5 0x1p-60 = Ok 0.5 /\
  update_delta_sell 0.5 0x1p-60 = Ok 0.5.
Proof. vm_compute. repeat split. Qed.

End B64Updates.

(** * The program on binary64 numbers: paths and means *)

Section B64Paths.

Import B64.
Local Open Scope float_scope.

(** C5, as stated, fails by rounding, for informed shares below [1].  The
    buy update takes the interior belief [5e-324] to [0]; the sell update
    takes the belief [0.9999999999999998] above [1]; and the path started
    at [0.5] with informed share [0.75] on which every draw is [0] (22
    informed sells) records the belief [1]. *)
Lemma b64_belief_reaches_boundary :
  ((0 <? 0x1p-1074) = true /\ (0x1p-1074 <? 1) = true /\
   update_delta_buy 0x1p-1074 0.5 = Ok 0) /\
  ((0.471 <? 1) = true /\
   update_delta_sell 0.9999999999999998 0.471 = Ok 1.0000000000000002) /\
  exists h g',
    simulate_model 0.5 0.75 99 101 22 (tape [0]) = Ok (h, g') /\
    nth 22 (delta_history h) 0 = 1.
Proof.
  split; [vm_compute; repeat split|].
  split; [vm_compute; repeat split|].
  eexists. eexists. split; [vm_compute; reflexivity|].
  vm_compute. reflexivity.
Qed.

(** C3, as stated, fails on the ticks where the two figures meet: on the
    informed sell at belief [0.25] with informed share [0.5], the figure
    recorded and ask minus bid are both [0.25]. *)
Lemma b64_spread_equals_realized_on_a_tick :
  exists h g',
    simulate_model 0.25 0.5 99 101 1 (tape [0]) = Ok (h, g') /\
    nth 0 (spread_history h) 0 = 0.25 /\
    nth 0 (ask_history h) 0 - nth 0 (bid_history h) 0 = 0.25.
Proof.
  eexists. eexists. split; [vm_compute; reflexivity|].
  vm_compute. split; reflexivity.
Qed.

(** C3, amended: at every tick the figure appended to the spread history
    is [mu * (V_H - V_L) * delta * (1 - delta)] computed at the belief
    after the tick's revision, and the quotes appended at the same tick are
    those of [calculate_prices] at the belief before it.  The figure is
    not ask minus bid in general: on the script's parameters and a single
    informed buy it is [0.09600000000000002] against
    [0.19999999999998863]. *)
Theorem b64_spread_recorded_after_revision :
  (forall (delta mu V_L V_H : float) (n_tiks : nat) (g g' : rng)
          (h : histories),
     simulate_model delta mu V_L V_H n_tiks g = Ok (h, g') ->
     forall i, (i < n_tiks)%nat ->
       let before := nth i (delta_history h) 0 in
       let after := nth (S i) (delta_history h) 0 in
       nth i (spread_history h) 0
       = mu * (V_H - V_L) * after * (1 - after) /\
       nth i (ask_history h) 0
       = fst (calculate_prices V_L V_H before mu) /\
       nth i (bid_history h) 0
       = snd (calculate_prices V_L V_H before mu)) /\
  (exists h g',
     simulate_model delta0 mu0 V_L0 V_H0 1 (tape [0.1; 0.9])
     = Ok (h, g') /\
     nth 0 (spread_history h) 0 = 0.09600000000000002 /\
     nth 0 (ask_history h) 0 - nth 0 (bid_history h) 0
     = 0.19999999999998863 /\
     (nth 0 (spread_history h) 0
      =? nth 0 (ask_history h) 0 - nth 0 (bid_history h) 0) = false).
Proof.
  split.
  - intros delta mu V_L V_H n_tiks g g' h Hsim i Hi before after.
    destruct (b64_simulate_model_traced _ _ _ _ _ _ _ _ Hsim)
      as (_ & _ & _ & _ & _ & _ & _ & Hticks).
    destruct (Hticks i Hi) as (_ & _ & Hspread & Hask & Hbid).
    split; [exact Hspread|]. split; assumption.
  - eexists. eexists. split; [vm_compute; reflexivity|].
    vm_compute. repeat split.
Qed.

(** C8, as stated, fails: a run on valid parameters and draws in
    [[0, 1)] can raise instead of returning.  At belief [1e-20] and
    informed share [1] with both draws [0], the tick is an informed sell
    and its denominator [1 - 1 * (1 - 2e-20)] is zero. *)
Lemma b64_run_raises :
  ((0 <=? 1e-20) = true /\ (1e-20 <=? 1) = true /\ (99 <? 101) = true) /\
  1 - 1 * (1 - 2 * 1e-20) = 0 /\
  simulate_model 1e-20 1 99 101 1 (tape [0]) = Raise ZeroDivisionError.
Proof. vm_compute. repeat split. Qed.

(** C8, amended: every run that returns gives spread, fundamental, ask
    and bid histories of length [n_tiks] each and a belief history of
    length [n_tiks + 1] that starts with the initial belief; so all runs
    that return under the same parameters have histories of the same
    lengths. *)
Theorem b64_returned_run_lengths (delta mu V_L V_H : float) (n_tiks : nat)
  (g g' : rng) (h : histories) :
  simulate_model delta mu V_L V_H n_tiks g = Ok (h, g') ->
  length (spread_history h) = n_tiks /\
  length (asset_price_history h) = n_tiks /\
  length (ask_history h) = n_tiks /\
  length (bid_history h) = n_tiks /\
  length (delta_history h) = (n_tiks + 1)%nat /\
  nth 0 (delta_history h) 0 = delta /\
  forall g2 h2 g2',
    simulate_model delta mu V_L V_H n_tiks g2 = Ok (h2, g2') ->
    length (spread_history h2) = length (spread_history h) /\
    length (asset_price_history h2) = length (asset_price_history h) /\
    length (ask_history h2) = length (ask_history h) /\
    length (bid_history h2) = length (bid_history h) /\
    length (delta_history h2) = length (delta_history h).
Proof.
  intro Hsim.
  destruct (b64_simulate_model_traced _ _ _ _ _ _ _ _ Hsim)
    as (Hs & Hdl & Ha & Hk & Hb & Hhead & _).
  repeat (split; [first [assumption | lia]|]).
  intros g2 h2 g2' Hsim2.
  destruct (b64_simulate_model_traced _ _ _ _ _ _ _ _ Hsim2)
    as (Hs2 & Hdl2 & Ha2 & Hk2 & Hb2 & _).
  repeat split; congruence.
Qed.

Lemma b64_returned_run_lengths_witness :
  exists h g',
    simulate_model delta0 mu0 V_L0 V_H0 3 B64.three_ticks = Ok (h, g') /\
    length (spread_history h) = 3%nat /\
    length (asset_price_history h) = 3%nat /\
    length (ask_history h) = 3%nat /\
    length (bid_history h) = 3%nat /\
    length (delta_history h) = 4%nat /\
    nth 0 (delta_history h) 0 = delta0 /\
    forall g2 h2 g2',
      simulate_model delta0 mu0 V_L0 V_H0 3 g2 = Ok (h2, g2') ->
      length (spread_history h2) = length (spread_history h) /\
      length (asset_price_history h2) = length (asset_price_history h) /\
      length (ask_history h2) = length (ask_history h) /\
      length (bid_history h2) = length (bid_history h) /\
      length (delta_history h2) = length (delta_history h).
Proof.
  destruct (simulate_model delta0 mu0 V_L0 V_H0 3 B64.three_ticks)
    as [[h g']|e] eqn:Hsim; [|vm_compute in Hsim; discriminate].
  exists h, g'. split; [reflexivity|].
  exact (b64_returned_run_lengths delta0 mu0 V_L0 V_H0 3 B64.three_ticks
           g' h Hsim).
Defined.

End B64Paths.

Section B64Means.

Import B64.
Local Open Scope float_scope.

(** What [collect] has gathered from a list of paths. *)
Lemma b64_fold_collect (hs : list histories) : forall a : all_histories,
  all_spread_histories (fold_left collect hs a)
  = all_spread_histories a ++ map spread_history hs /\
  all_delta_histories (fold_left collect hs a)
  = all_delta_histories a ++ map delta_history hs.
Proof.
  induction hs as [|h hs IH]; intro a; cbn [fold_left map].
  - rewrite !app_nil_r. now split.
  - destruct (IH (collect a h)) as (H1 & H2).
    rewrite H1, H2. unfold collect.
    cbn [all_spread_histories all_delta_histories].
    rewrite <- !app_assoc. now split.
Qed.

(** The replications that a returning loop has gathered: each a returned
    path, so each with a belief history of [n_tiks + 1] entries that starts
    with [delta]. *)
Lemma b64_replicate_paths (delta mu V_L V_H : float) (n_tiks : nat) :
  forall (n_simulations : nat) (a a' : all_histories) (g g' : rng),
    replicate delta mu V_L V_H n_tiks n_simulations a g = Ok (a', g') ->
    exists hs,
      length hs = n_simulations /\
      a' = fold_left collect hs a /\
      forall h, In h hs ->
        length (delta_history h) = S n_tiks /\
        nth 0 (delta_history h) 0 = delta.
Proof.
  induction n_simulations as [|k IH]; intros a a' g g' Hrep;
    cbn [replicate] in Hrep.
  - injection Hrep as <- <-. exists []. cbn [length fold_left].
    split; [reflexivity|]. split; [reflexivity|]. intros h [].
  - destruct (simulate_model delta mu V_L V_H n_tiks g)
      as [[h0 g1]|e] eqn:Hsim; [|discriminate].
    cbn [bind fst snd] in Hrep.
    destruct (IH _ _ _ _ Hrep) as (hs & Hlen & Ha & Hruns).
    destruct (b64_simulate_model_traced _ _ _ _ _ _ _ _ Hsim)
      as (_ & Hdl & _ & _ & _ & Hhead & _).
    exists (h0 :: hs). cbn [length fold_left].
    split; [now rewrite Hlen|]. split; [exact Ha|].
    intros h [<-|Hin]; [now split|now apply Hruns].
Qed.

Lemma b64_column_heads (delta : float) (w : nat) (hs : list histories) :
  (forall h, In h hs ->
     length (delta_history h) = w /\ nth 0 (delta_history h) 0 = delta) ->
  column (map delta_history hs) 0 = repeat delta (length hs) /\
  forallb (fun row => Nat.eqb (length row) w) (map delta_history hs)
  = true.
Proof.
  induction hs as [|h hs IH]; intro H; cbn [map column length repeat forallb].
  - now split.
  - destruct (H h (or_introl eq_refl)) as [Hl Hh].
    destruct (IH (fun h' Hin => H h' (or_intror Hin))) as [Hc Hf].
    unfold column in Hc. rewrite Hc, Hh, Hf, Hl, Nat.eqb_refl.
    now split.
Qed.

Lemma b64_np_mean_axis0_rows (w : nat) (rows : list (list float)) :
  rows <> [] ->
  forallb (fun row => Nat.eqb (length row) w) rows = true ->
  np_mean_axis0 rows
  = Ok (Series (map (fun j => fsum (column rows j) / count (length rows))
                    (seq 0 w))).
Proof.
  intros Hne Hrows. destruct rows as [|first rest]; [contradiction|].
  unfold np_mean_axis0.
  assert (Hw : length first = w).
  { cbn [forallb] in Hrows. apply andb_prop in Hrows.
    now apply Nat.eqb_eq. }
  now rewrite Hw, Hrows.
Qed.

(** C9, as stated, fails by rounding: with initial belief [0.1] and three
    replications, the three copies of [0.1] add up to
    [0.30000000000000004] and the mean belief at index 0 is
    [0.10000000000000002]. *)
Lemma b64_mean_delta_head_rounded :
  exists agg m,
    monte_carlo 0.1 mu0 V_L0 V_H0 2 3 three_ticks = Ok agg /\
    mean_delta agg = Series m /\
    nth 0 m 0 = 0.10000000000000002 /\
    (nth 0 m 0 =? 0.1) = false.
Proof.
  eexists. eexists. split; [vm_compute; reflexivity|].
  cbn [mean_delta]. split; [reflexivity|].
  vm_compute. split; reflexivity.
Qed.

(** C9, amended: whenever the Monte Carlo driver returns, with at least
    one replication, its mean belief series has [n_tiks + 1] entries and
    the one at index 0 is the binary64 mean of [n_simulations] copies of
    the initial belief: their sum, added up one by one, divided by their
    number.  That is the initial belief itself where sum and quotient are
    exact, as for the script's [0.5] and [1000] replications. *)
Theorem b64_mean_delta_head :
  (forall (delta mu V_L V_H : float) (n_tiks n_simulations : nat)
          (g : rng) (agg : aggregate),
     (0 < n_simulations)%nat ->
     monte_carlo delta mu V_L V_H n_tiks n_simulations g = Ok agg ->
     exists m,
       mean_delta agg = Series m /\
       length m = (n_tiks + 1)%nat /\
       nth 0 m 0
       = fsum (repeat delta n_simulations) / count n_simulations) /\
  fsum (repeat delta0 1000) / count 1000 = delta0.
Proof.
  split; [|vm_compute; reflexivity].
  intros delta mu V_L V_H n_tiks n_simulations g agg Hn Hmc.
  unfold monte_carlo in Hmc.
  destruct (replicate _ _ _ _ _ _ _ _) as [[a g']|e] eqn:Hrep;
    [|discriminate].
  cbn [bind fst] in Hmc.
  destruct (np_mean_axis0 (all_spread_histories a)) as [ms|e];
    [|discriminate].
  cbn [bind] in Hmc.
  destruct (b64_replicate_paths _ _ _ _ _ _ _ _ _ _ Hrep)
    as (hs & Hlen & Ha & Hruns).
  destruct (b64_fold_collect hs empty_all) as [_ Hd].
  rewrite <- Ha in Hd. cbn [empty_all all_delta_histories app] in Hd.
  destruct (b64_column_heads delta (S n_tiks) hs Hruns) as [Hcol Hrows].
  rewrite Hd in Hmc.
  assert (Hne : map delta_history hs <> [])
    by (destruct hs; [cbn in Hlen; lia|discriminate]).
  rewrite (b64_np_mean_axis0_rows (S n_tiks) _ Hne Hrows) in Hmc.
  cbn [bind] in Hmc.
  destruct (np_mean_axis0 (all_asset_price_histories a)) as [mv|e];
    [|discriminate].
  cbn [bind] in Hmc.
  destruct (np_mean_axis0 (all_ask_histories a)) as [ma|e];
    [|discriminate].
  cbn [bind] in Hmc.
  destruct (np_mean_axis0 (all_bid_histories a)) as [mb|e];
    [|discriminate].
  cbn [bind] in Hmc. injection Hmc as <-.
  cbn [mean_delta]. eexists. split; [reflexivity|].
  split; [cbn [length]; rewrite !length_map, length_seq; lia|].
  cbn [nth]. rewrite Hcol, !length_map. now rewrite Hlen.
Qed.

End B64Means.

Section B64Noise.

Import B64.
Local Open Scope float_scope.

(** Ticks on which no informed trader is drawn change nothing and divide
    by nothing but the literal [2]. *)
Lemma b64_loop_uninformed (mu V_L V_H : float) (n : nat) :
  forall s : locals,
    (forall j, (j < n)%nat ->
       fst (draw_trader_type mu (rng_at (l_rng s) (2 * j))) = uninformed) ->
    exists s',
      loop mu V_L V_H n s = Ok s' /\
      delta_history (l_hist s')
      = delta_history (l_hist s) ++ repeat (l_delta s) n /\
      spread_history (l_hist s')
      = spread_history (l_hist s)
        ++ repeat (mu * (V_H - V_L) * l_delta s * (1 - l_delta s)) n /\
      ask_history (l_hist s')
      = ask_history (l_hist s)
        ++ repeat (fst (calculate_prices V_L V_H (l_delta s) mu)) n /\
      bid_history (l_hist s')
      = bid_history (l_hist s)
        ++ repeat (snd (calculate_prices V_L V_H (l_delta s) mu)) n.
Proof.
  induction n as [|n IH]; intros s Hun; cbn [loop].
  - exists s. cbn [repeat]. rewrite !app_nil_r. now repeat split.
  - rewrite b64_loop_body_eq. cbv zeta.
    pose proof (Hun 0%nat ltac:(lia)) as H0.
    rewrite b64_rng_at_0 in H0. rewrite H0. cbn [revise bind].
    match goal with |- exists s', loop _ _ _ _ ?s1 = _ /\ _ =>
      destruct (IH s1) as (s' & Hloop & Hd & Hs & Ha & Hb)
    end.
    { intros j Hj. cbn [l_rng]. rewrite b64_rng_at_at.
      replace (2 * j + 2)%nat with (2 * S j)%nat by lia.
      apply Hun. lia. }
    cbn [l_hist l_delta delta_history spread_history ask_history
         bid_history] in Hd, Hs, Ha, Hb.
    exists s'. split; [exact Hloop|].
    rewrite Hd, Hs, Ha, Hb, <- !app_assoc. now repeat split.
Qed.

(** X8: on float parameters, a path on which every trader drawn is
    uninformed returns, whatever the parameters, and nothing moves on it:
    the belief history repeats the initial belief, and the spread, ask and
    bid histories repeat the figures computed from it. *)
Theorem b64_simulate_model_noise_only (delta mu V_L V_H : float)
  (n_tiks : nat) (g : rng) :
  (forall i, (i < n_tiks)%nat -> trader_type_at mu g i = uninformed) ->
  exists h g',
    simulate_model delta mu V_L V_H n_tiks g = Ok (h, g') /\
    delta_history h = repeat delta (S n_tiks) /\
    spread_history h
    = repeat (mu * (V_H - V_L) * delta * (1 - delta)) n_tiks /\
    ask_history h = repeat (fst (calculate_prices V_L V_H delta mu)) n_tiks /\
    bid_history h = repeat (snd (calculate_prices V_L V_H delta mu)) n_tiks.
Proof.
  intro Hun. unfold simulate_model. cbv zeta.
  destruct (b64_loop_uninformed mu V_L V_H n_tiks
              (mkLocals delta (mu * (V_H - V_L))
                 (mkHist [] [delta] [] [] []) g))
    as (s' & Hloop & Hd & Hs & Ha & Hb).
  { intros j Hj. cbn [l_rng]. apply (Hun j Hj). }
  rewrite Hloop. cbn [bind]. exists (l_hist s'), (l_rng s').
  split; [reflexivity|]. now repeat split.
Qed.

Lemma b64_simulate_model_noise_only_witness :
  exists h g',
    simulate_model delta0 mu0 V_L0 V_H0 2 (tape [0.5; 0.1]) = Ok (h, g') /\
    delta_history h = repeat delta0 3 /\
    spread_history h
    = repeat (mu0 * (V_H0 - V_L0) * delta0 * (1 - delta0)) 2 /\
    ask_history h = repeat (fst (calculate_prices V_L0 V_H0 delta0 mu0)) 2 /\
    bid_history h = repeat (snd (calculate_prices V_L0 V_H0 delta0 mu0)) 2.
Proof.
  apply (b64_simulate_model_noise_only delta0 mu0 V_L0 V_H0 2
           (tape [0.5; 0.1])).
  intros i Hi.
  destruct i as [|[|i]]; [reflexivity|reflexivity|lia].
Defined.

End B64Noise.
